(** * Portable ECG / SpO2 monitor: packet decoder, QRS detector, SpO2 estimator

    A shallow embedding of the Python sources
    [process_data.py], [heartrate_algorithm.py] and [spo2_algorithm.py],
    followed by the properties checked against them.

    Conventions of the embedding:
    - Python integers are [Z]; bytes received from the transport are
      integers in [0, 255].
    - [np.float64] values are modelled by exact rationals [Q]: sums, means,
      quotients and comparisons are the exact ones, and [int(x)] is
      truncation towards zero.
    - A Python exception is the [Raise] case of [result]. *)

From Stdlib Require Import ZArith QArith Qabs Bool Lia Sorted.
From stdpp Require Import base list.

Local Open Scope Z_scope.

(** ** Python primitives shared by the three modules *)

Inductive py_exception : Set :=
| IndexError | ZeroDivisionError | ValueError | OverflowError | TypeError.

Inductive result (A : Type) : Type :=
| Ok (a : A)
| Raise (e : py_exception).
Arguments Ok {A} a.
Arguments Raise {A} e.

#[global] Instance result_ret : MRet result := fun _ a => Ok a.
#[global] Instance result_bind : MBind result := fun _ _ f m =>
  match m with
  | Ok a => f a
  | Raise e => Raise e
  end.

(** [len(l)] as a Python integer. *)
Definition len {A} (l : list A) : Z := Z.of_nat (length l).

(** [l[i]] on a list or a one-dimensional array: a negative index counts
    from the end, an index out of range raises [IndexError]. *)
Definition getitem {A} (l : list A) (i : Z) : result A :=
  let j := if i <? 0 then len l + i else i in
  if j <? 0 then Raise IndexError
  else match l !! Z.to_nat j with
       | Some x => Ok x
       | None => Raise IndexError
       end.

(** [l[i] = x]. *)
Definition setitem {A} (l : list A) (i : Z) (x : A) : result (list A) :=
  let j := if i <? 0 then len l + i else i in
  if (j <? 0) || (len l <=? j) then Raise IndexError
  else Ok (<[Z.to_nat j := x]> l).

(** [l[a:b]] for [0 <= a] and [0 <= b]. *)
Definition slice {A} (l : list A) (a b : Z) : list A :=
  take (Z.to_nat (b - a)) (drop (Z.to_nat a) l).

(** [int(x)] of a float: truncation towards zero. *)
Definition int_of (x : Q) : Z := Z.quot (Qnum x) (Zpos (Qden x)).

(** Sums and means, kept in lowest terms. *)
Definition Qsum (l : list Q) : Q := fold_left Qplus' l (0%Q).

(** [np.mean(l)]; only used on non-empty sequences. *)
Definition np_mean (l : list Q) : Q := Qred (Qsum l / inject_Z (len l)).

Definition Qltb (a b : Q) : bool := negb (Qle_bool b a).

Definition Qmin' (a b : Q) : Q := if Qle_bool a b then a else b.
Definition Qmax' (a b : Q) : Q := if Qle_bool a b then b else a.

(** [np.max(l)]: raises [ValueError] on an empty sequence. *)
Definition np_max (l : list Q) : result Q :=
  match l with
  | [] => Raise ValueError
  | x :: l' => Ok (fold_left Qmax' l' x)
  end.

(** ** heartrate_algorithm.py: FIR filter and QRS detector *)

Module HeartrateAlgorithm.

Definition FILTER_ORDER : Z := 161.
Definition MAX_PEAK_TO_SEARCH : Z := 4.
Definition TWO_SEC_SAMPLES : Z := 125 * 2.
Definition MAXIMA_SEARCH_WINDOW : Z := 50.
Definition MINIMUM_SKIP_WINDOW : Z := 30.
Definition SAMPLING_RATE : Z := 125.
Definition NRCOEFF : Z := 3.

Definition CoeffBuf_40Hz_LowPass : list Z :=
  [(-72); 122; (-31); (-99); 117; 0; (-121); 105; 34;
   (-137); 84; 70; (-146); 55; 104; (-147); 20; 135;
   (-137); (-21); 160; (-117); (-64); 177; (-87); (-108); 185;
   (-48); (-151); 181; 0; (-188); 164; 54; (-218); 134;
   112; (-238); 90; 171; (-244); 33; 229; (-235); (-36);
   280; (-208); (-115); 322; (-161); (-203); 350; (-92); (-296);
   361; 0; (-391); 348; 117; (-486); 305; 264; (-577);
   225; 445; (-660); 93; 676; (-733); (-119); 991; (-793);
   (-480); 1486; (-837); (-1226); 2561; (-865); (-4018); 9438; 20972;
   9438; (-4018); (-865); 2561; (-1226); (-837); 1486; (-480); (-793);
   991; (-119); (-733); 676; 93; (-660); 445; 225; (-577);
   264; 305; (-486); 117; 348; (-391); 0; 361; (-296);
   (-92); 350; (-203); (-161); 322; (-115); (-208); 280; (-36);
   (-235); 229; 33; (-244); 171; 90; (-238); 112; 134;
   (-218); 54; 164; (-188); 0; 181; (-151); (-48); 185;
   (-108); (-87); 177; (-64); (-117); 160; (-21); (-137); 135;
   20; (-147); 104; 55; (-146); 70; 84; (-137); 34;
   105; (-121); 0; 117; (-99); (-31); 122; (-72)].

(** [np.dot(coeff_buf, working_buff)] of an integer and a float vector;
    vectors of different lengths raise [ValueError]. *)
Definition dot_product (coeff_buf : list Z) (working_buff : list Q) : Q :=
  Qsum (zip_with (fun c w => (inject_Z c * w)%Q) coeff_buf working_buff).

Definition np_dot (coeff_buf : list Z) (working_buff : list Q) : result Q :=
  if len coeff_buf =? len working_buff
  then Ok (dot_product coeff_buf working_buff)
  else Raise ValueError.

(** Conversion of a Python integer to [np.int16], and the store of one in
    an [int16] array: a value out of range raises [OverflowError] (NumPy
    releases before 2.0 wrap it instead; the two agree in range). *)
Definition np_int16 (v : Z) : result Z :=
  if (-32768 <=? v) && (v <=? 32767) then Ok v else Raise OverflowError.

(** [ecg_filter_process(working_buff, coeff_buf)].  The [np.convolve] call
    of the source computes a value that is not used; it raises
    [ValueError] on an empty vector. *)
Definition ecg_filter_process (working_buff : list Q) (coeff_buf : list Z)
  : result Z :=
  acc ← np_dot coeff_buf working_buff;
  if (len working_buff =? 0) || (len coeff_buf =? 0) then Raise ValueError else
  let acc := int_of acc in
  let acc := Z.max (Z.min acc 0x3fffffff) (-0x40000000) in
  np_int16 (Z.shiftr acc 15).

(** The attributes of the class that its methods read or write
    ([resp_buffer] and [buf_cur] are set by the constructor and never used
    again). *)
Record ECGRespirationAlgorithm : Type := Build_ECG {
  ecg_buffer : list Q;
  first_flag : bool;
  buf_start : Z;
  prev_dc_sample : Z;
  prev_sample : Z;
  max : Z;
  qrs_b4_buffer_ptr : Z;
  qrs_threshold_old : Z;
  qrs_threshold_new : Z;
  first_peak_detected : bool;
  heart_rate : Q;
  qrs_samples : list Z;
  prev_data : list Z;
  sample_count : Z;
  nopeak_count : Z;
  maxima_search : Z;
  peak : Z;
  maxima_sum : Z;
  sample_index : list Z;
  s_array_index : Z;
  m_array_index : Z;
  threshold_crossed : bool;
  peak_detected : bool;
  first_peak_detect : bool;
  start_sample_count_flag : bool;
  sample_sum : Z
}.
Definition set_ecg_buffer (v : list Q) (s : ECGRespirationAlgorithm) :=
  Build_ECG v (first_flag s) (buf_start s) (prev_dc_sample s) (prev_sample s)
    (max s) (qrs_b4_buffer_ptr s) (qrs_threshold_old s) (qrs_threshold_new s)
    (first_peak_detected s) (heart_rate s) (qrs_samples s) (prev_data s)
    (sample_count s) (nopeak_count s) (maxima_search s) (peak s)
    (maxima_sum s) (sample_index s) (s_array_index s) (m_array_index s)
    (threshold_crossed s) (peak_detected s) (first_peak_detect s)
    (start_sample_count_flag s) (sample_sum s).
Definition set_first_flag (v : bool) (s : ECGRespirationAlgorithm) :=
  Build_ECG (ecg_buffer s) v (buf_start s) (prev_dc_sample s) (prev_sample s)
    (max s) (qrs_b4_buffer_ptr s) (qrs_threshold_old s) (qrs_threshold_new s)
    (first_peak_detected s) (heart_rate s) (qrs_samples s) (prev_data s)
    (sample_count s) (nopeak_count s) (maxima_search s) (peak s)
    (maxima_sum s) (sample_index s) (s_array_index s) (m_array_index s)
    (threshold_crossed s) (peak_detected s) (first_peak_detect s)
    (start_sample_count_flag s) (sample_sum s).
Definition set_buf_start (v : Z) (s : ECGRespirationAlgorithm) :=
  Build_ECG (ecg_buffer s) (first_flag s) v (prev_dc_sample s) (prev_sample s)
    (max s) (qrs_b4_buffer_ptr s) (qrs_threshold_old s) (qrs_threshold_new s)
    (first_peak_detected s) (heart_rate s) (qrs_samples s) (prev_data s)
    (sample_count s) (nopeak_count s) (maxima_search s) (peak s)
    (maxima_sum s) (sample_index s) (s_array_index s) (m_array_index s)
    (threshold_crossed s) (peak_detected s) (first_peak_detect s)
    (start_sample_count_flag s) (sample_sum s).
Definition set_prev_dc_sample (v : Z) (s : ECGRespirationAlgorithm) :=
  Build_ECG (ecg_buffer s) (first_flag s) (buf_start s) v (prev_sample s)
    (max s) (qrs_b4_buffer_ptr s) (qrs_threshold_old s) (qrs_threshold_new s)
    (first_peak_detected s) (heart_rate s) (qrs_samples s) (prev_data s)
    (sample_count s) (nopeak_count s) (maxima_search s) (peak s)
    (maxima_sum s) (sample_index s) (s_array_index s) (m_array_index s)
    (threshold_crossed s) (peak_detected s) (first_peak_detect s)
    (start_sample_count_flag s) (sample_sum s).
Definition set_prev_sample (v : Z) (s : ECGRespirationAlgorithm) :=
  Build_ECG (ecg_buffer s) (first_flag s) (buf_start s) (prev_dc_sample s) v
    (max s) (qrs_b4_buffer_ptr s) (qrs_threshold_old s) (qrs_threshold_new s)
    (first_peak_detected s) (heart_rate s) (qrs_samples s) (prev_data s)
    (sample_count s) (nopeak_count s) (maxima_search s) (peak s)
    (maxima_sum s) (sample_index s) (s_array_index s) (m_array_index s)
    (threshold_crossed s) (peak_detected s) (first_peak_detect s)
    (start_sample_count_flag s) (sample_sum s).
Definition set_max (v : Z) (s : ECGRespirationAlgorithm) :=
  Build_ECG (ecg_buffer s) (first_flag s) (buf_start s) (prev_dc_sample s)
    (prev_sample s) v (qrs_b4_buffer_ptr s) (qrs_threshold_old s)
    (qrs_threshold_new s) (first_peak_detected s) (heart_rate s)
    (qrs_samples s) (prev_data s) (sample_count s) (nopeak_count s)
    (maxima_search s) (peak s) (maxima_sum s) (sample_index s)
    (s_array_index s) (m_array_index s) (threshold_crossed s)
    (peak_detected s) (first_peak_detect s) (start_sample_count_flag s)
    (sample_sum s).
Definition set_qrs_b4_buffer_ptr (v : Z) (s : ECGRespirationAlgorithm) :=
  Build_ECG (ecg_buffer s) (first_flag s) (buf_start s) (prev_dc_sample s)
    (prev_sample s) (max s) v (qrs_threshold_old s) (qrs_threshold_new s)
    (first_peak_detected s) (heart_rate s) (qrs_samples s) (prev_data s)
    (sample_count s) (nopeak_count s) (maxima_search s) (peak s)
    (maxima_sum s) (sample_index s) (s_array_index s) (m_array_index s)
    (threshold_crossed s) (peak_detected s) (first_peak_detect s)
    (start_sample_count_flag s) (sample_sum s).
Definition set_qrs_threshold_old (v : Z) (s : ECGRespirationAlgorithm) :=
  Build_ECG (ecg_buffer s) (first_flag s) (buf_start s) (prev_dc_sample s)
    (prev_sample s) (max s) (qrs_b4_buffer_ptr s) v (qrs_threshold_new s)
    (first_peak_detected s) (heart_rate s) (qrs_samples s) (prev_data s)
    (sample_count s) (nopeak_count s) (maxima_search s) (peak s)
    (maxima_sum s) (sample_index s) (s_array_index s) (m_array_index s)
    (threshold_crossed s) (peak_detected s) (first_peak_detect s)
    (start_sample_count_flag s) (sample_sum s).
Definition set_qrs_threshold_new (v : Z) (s : ECGRespirationAlgorithm) :=
  Build_ECG (ecg_buffer s) (first_flag s) (buf_start s) (prev_dc_sample s)
    (prev_sample s) (max s) (qrs_b4_buffer_ptr s) (qrs_threshold_old s) v
    (first_peak_detected s) (heart_rate s) (qrs_samples s) (prev_data s)
    (sample_count s) (nopeak_count s) (maxima_search s) (peak s)
    (maxima_sum s) (sample_index s) (s_array_index s) (m_array_index s)
    (threshold_crossed s) (peak_detected s) (first_peak_detect s)
    (start_sample_count_flag s) (sample_sum s).
Definition set_first_peak_detected (v : bool) (s : ECGRespirationAlgorithm) :=
  Build_ECG (ecg_buffer s) (first_flag s) (buf_start s) (prev_dc_sample s)
    (prev_sample s) (max s) (qrs_b4_buffer_ptr s) (qrs_threshold_old s)
    (qrs_threshold_new s) v (heart_rate s) (qrs_samples s) (prev_data s)
    (sample_count s) (nopeak_count s) (maxima_search s) (peak s)
    (maxima_sum s) (sample_index s) (s_array_index s) (m_array_index s)
    (threshold_crossed s) (peak_detected s) (first_peak_detect s)
    (start_sample_count_flag s) (sample_sum s).
Definition set_heart_rate (v : Q) (s : ECGRespirationAlgorithm) :=
  Build_ECG (ecg_buffer s) (first_flag s) (buf_start s) (prev_dc_sample s)
    (prev_sample s) (max s) (qrs_b4_buffer_ptr s) (qrs_threshold_old s)
    (qrs_threshold_new s) (first_peak_detected s) v (qrs_samples s)
    (prev_data s) (sample_count s) (nopeak_count s) (maxima_search s) (peak s)
    (maxima_sum s) (sample_index s) (s_array_index s) (m_array_index s)
    (threshold_crossed s) (peak_detected s) (first_peak_detect s)
    (start_sample_count_flag s) (sample_sum s).
Definition set_qrs_samples (v : list Z) (s : ECGRespirationAlgorithm) :=
  Build_ECG (ecg_buffer s) (first_flag s) (buf_start s) (prev_dc_sample s)
    (prev_sample s) (max s) (qrs_b4_buffer_ptr s) (qrs_threshold_old s)
    (qrs_threshold_new s) (first_peak_detected s) (heart_rate s) v
    (prev_data s) (sample_count s) (nopeak_count s) (maxima_search s) (peak s)
    (maxima_sum s) (sample_index s) (s_array_index s) (m_array_index s)
    (threshold_crossed s) (peak_detected s) (first_peak_detect s)
    (start_sample_count_flag s) (sample_sum s).
Definition set_prev_data (v : list Z) (s : ECGRespirationAlgorithm) :=
  Build_ECG (ecg_buffer s) (first_flag s) (buf_start s) (prev_dc_sample s)
    (prev_sample s) (max s) (qrs_b4_buffer_ptr s) (qrs_threshold_old s)
    (qrs_threshold_new s) (first_peak_detected s) (heart_rate s)
    (qrs_samples s) v (sample_count s) (nopeak_count s) (maxima_search s)
    (peak s) (maxima_sum s) (sample_index s) (s_array_index s)
    (m_array_index s) (threshold_crossed s) (peak_detected s)
    (first_peak_detect s) (start_sample_count_flag s) (sample_sum s).
Definition set_sample_count (v : Z) (s : ECGRespirationAlgorithm) :=
  Build_ECG (ecg_buffer s) (first_flag s) (buf_start s) (prev_dc_sample s)
    (prev_sample s) (max s) (qrs_b4_buffer_ptr s) (qrs_threshold_old s)
    (qrs_threshold_new s) (first_peak_detected s) (heart_rate s)
    (qrs_samples s) (prev_data s) v (nopeak_count s) (maxima_search s)
    (peak s) (maxima_sum s) (sample_index s) (s_array_index s)
    (m_array_index s) (threshold_crossed s) (peak_detected s)
    (first_peak_detect s) (start_sample_count_flag s) (sample_sum s).
Definition set_nopeak_count (v : Z) (s : ECGRespirationAlgorithm) :=
  Build_ECG (ecg_buffer s) (first_flag s) (buf_start s) (prev_dc_sample s)
    (prev_sample s) (max s) (qrs_b4_buffer_ptr s) (qrs_threshold_old s)
    (qrs_threshold_new s) (first_peak_detected s) (heart_rate s)
    (qrs_samples s) (prev_data s) (sample_count s) v (maxima_search s)
    (peak s) (maxima_sum s) (sample_index s) (s_array_index s)
    (m_array_index s) (threshold_crossed s) (peak_detected s)
    (first_peak_detect s) (start_sample_count_flag s) (sample_sum s).
Definition set_maxima_search (v : Z) (s : ECGRespirationAlgorithm) :=
  Build_ECG (ecg_buffer s) (first_flag s) (buf_start s) (prev_dc_sample s)
    (prev_sample s) (max s) (qrs_b4_buffer_ptr s) (qrs_threshold_old s)
    (qrs_threshold_new s) (first_peak_detected s) (heart_rate s)
    (qrs_samples s) (prev_data s) (sample_count s) (nopeak_count s) v (peak s)
    (maxima_sum s) (sample_index s) (s_array_index s) (m_array_index s)
    (threshold_crossed s) (peak_detected s) (first_peak_detect s)
    (start_sample_count_flag s) (sample_sum s).
Definition set_peak (v : Z) (s : ECGRespirationAlgorithm) :=
  Build_ECG (ecg_buffer s) (first_flag s) (buf_start s) (prev_dc_sample s)
    (prev_sample s) (max s) (qrs_b4_buffer_ptr s) (qrs_threshold_old s)
    (qrs_threshold_new s) (first_peak_detected s) (heart_rate s)
    (qrs_samples s) (prev_data s) (sample_count s) (nopeak_count s)
    (maxima_search s) v (maxima_sum s) (sample_index s) (s_array_index s)
    (m_array_index s) (threshold_crossed s) (peak_detected s)
    (first_peak_detect s) (start_sample_count_flag s) (sample_sum s).
Definition set_maxima_sum (v : Z) (s : ECGRespirationAlgorithm) :=
  Build_ECG (ecg_buffer s) (first_flag s) (buf_start s) (prev_dc_sample s)
    (prev_sample s) (max s) (qrs_b4_buffer_ptr s) (qrs_threshold_old s)
    (qrs_threshold_new s) (first_peak_detected s) (heart_rate s)
    (qrs_samples s) (prev_data s) (sample_count s) (nopeak_count s)
    (maxima_search s) (peak s) v (sample_index s) (s_array_index s)
    (m_array_index s) (threshold_crossed s) (peak_detected s)
    (first_peak_detect s) (start_sample_count_flag s) (sample_sum s).
Definition set_sample_index (v : list Z) (s : ECGRespirationAlgorithm) :=
  Build_ECG (ecg_buffer s) (first_flag s) (buf_start s) (prev_dc_sample s)
    (prev_sample s) (max s) (qrs_b4_buffer_ptr s) (qrs_threshold_old s)
    (qrs_threshold_new s) (first_peak_detected s) (heart_rate s)
    (qrs_samples s) (prev_data s) (sample_count s) (nopeak_count s)
    (maxima_search s) (peak s) (maxima_sum s) v (s_array_index s)
    (m_array_index s) (threshold_crossed s) (peak_detected s)
    (first_peak_detect s) (start_sample_count_flag s) (sample_sum s).
Definition set_s_array_index (v : Z) (s : ECGRespirationAlgorithm) :=
  Build_ECG (ecg_buffer s) (first_flag s) (buf_start s) (prev_dc_sample s)
    (prev_sample s) (max s) (qrs_b4_buffer_ptr s) (qrs_threshold_old s)
    (qrs_threshold_new s) (first_peak_detected s) (heart_rate s)
    (qrs_samples s) (prev_data s) (sample_count s) (nopeak_count s)
    (maxima_search s) (peak s) (maxima_sum s) (sample_index s) v
    (m_array_index s) (threshold_crossed s) (peak_detected s)
    (first_peak_detect s) (start_sample_count_flag s) (sample_sum s).
Definition set_m_array_index (v : Z) (s : ECGRespirationAlgorithm) :=
  Build_ECG (ecg_buffer s) (first_flag s) (buf_start s) (prev_dc_sample s)
    (prev_sample s) (max s) (qrs_b4_buffer_ptr s) (qrs_threshold_old s)
    (qrs_threshold_new s) (first_peak_detected s) (heart_rate s)
    (qrs_samples s) (prev_data s) (sample_count s) (nopeak_count s)
    (maxima_search s) (peak s) (maxima_sum s) (sample_index s)
    (s_array_index s) v (threshold_crossed s) (peak_detected s)
    (first_peak_detect s) (start_sample_count_flag s) (sample_sum s).
Definition set_threshold_crossed (v : bool) (s : ECGRespirationAlgorithm) :=
  Build_ECG (ecg_buffer s) (first_flag s) (buf_start s) (prev_dc_sample s)
    (prev_sample s) (max s) (qrs_b4_buffer_ptr s) (qrs_threshold_old s)
    (qrs_threshold_new s) (first_peak_detected s) (heart_rate s)
    (qrs_samples s) (prev_data s) (sample_count s) (nopeak_count s)
    (maxima_search s) (peak s) (maxima_sum s) (sample_index s)
    (s_array_index s) (m_array_index s) v (peak_detected s)
    (first_peak_detect s) (start_sample_count_flag s) (sample_sum s).
Definition set_peak_detected (v : bool) (s : ECGRespirationAlgorithm) :=
  Build_ECG (ecg_buffer s) (first_flag s) (buf_start s) (prev_dc_sample s)
    (prev_sample s) (max s) (qrs_b4_buffer_ptr s) (qrs_threshold_old s)
    (qrs_threshold_new s) (first_peak_detected s) (heart_rate s)
    (qrs_samples s) (prev_data s) (sample_count s) (nopeak_count s)
    (maxima_search s) (peak s) (maxima_sum s) (sample_index s)
    (s_array_index s) (m_array_index s) (threshold_crossed s) v
    (first_peak_detect s) (start_sample_count_flag s) (sample_sum s).
Definition set_first_peak_detect (v : bool) (s : ECGRespirationAlgorithm) :=
  Build_ECG (ecg_buffer s) (first_flag s) (buf_start s) (prev_dc_sample s)
    (prev_sample s) (max s) (qrs_b4_buffer_ptr s) (qrs_threshold_old s)
    (qrs_threshold_new s) (first_peak_detected s) (heart_rate s)
    (qrs_samples s) (prev_data s) (sample_count s) (nopeak_count s)
    (maxima_search s) (peak s) (maxima_sum s) (sample_index s)
    (s_array_index s) (m_array_index s) (threshold_crossed s)
    (peak_detected s) v (start_sample_count_flag s) (sample_sum s).
Definition set_start_sample_count_flag (v : bool) (s : ECGRespirationAlgorithm) :=
  Build_ECG (ecg_buffer s) (first_flag s) (buf_start s) (prev_dc_sample s)
    (prev_sample s) (max s) (qrs_b4_buffer_ptr s) (qrs_threshold_old s)
    (qrs_threshold_new s) (first_peak_detected s) (heart_rate s)
    (qrs_samples s) (prev_data s) (sample_count s) (nopeak_count s)
    (maxima_search s) (peak s) (maxima_sum s) (sample_index s)
    (s_array_index s) (m_array_index s) (threshold_crossed s)
    (peak_detected s) (first_peak_detect s) v (sample_sum s).
Definition set_sample_sum (v : Z) (s : ECGRespirationAlgorithm) :=
  Build_ECG (ecg_buffer s) (first_flag s) (buf_start s) (prev_dc_sample s)
    (prev_sample s) (max s) (qrs_b4_buffer_ptr s) (qrs_threshold_old s)
    (qrs_threshold_new s) (first_peak_detected s) (heart_rate s)
    (qrs_samples s) (prev_data s) (sample_count s) (nopeak_count s)
    (maxima_search s) (peak s) (maxima_sum s) (sample_index s)
    (s_array_index s) (m_array_index s) (threshold_crossed s)
    (peak_detected s) (first_peak_detect s) (start_sample_count_flag s) v.
(** [ECGRespirationAlgorithm()] *)
Definition init : ECGRespirationAlgorithm :=
  {| ecg_buffer := replicate (Z.to_nat FILTER_ORDER) 0%Q;
     first_flag := true;
     buf_start := 0;
     prev_dc_sample := 0;
     prev_sample := 0;
     max := 0;
     qrs_b4_buffer_ptr := 0;
     qrs_threshold_old := 0;
     qrs_threshold_new := 0;
     first_peak_detected := false;
     heart_rate := 0%Q;
     qrs_samples := replicate 5 0;
     prev_data := replicate 32 0;
     sample_count := 0;
     nopeak_count := 0;
     maxima_search := 0;
     peak := 0;
     maxima_sum := 0;
     sample_index := replicate (Z.to_nat (MAX_PEAK_TO_SEARCH + 2)) 0;
     s_array_index := 0;
     m_array_index := 0;
     threshold_crossed := false;
     peak_detected := false;
     first_peak_detect := false;
     start_sample_count_flag := false;
     sample_sum := 0 |}.

(** [process_current_sample(self, current_sample)] *)
Definition process_current_sample (s : ECGRespirationAlgorithm) (current_sample : Z)
  : result (ECGRespirationAlgorithm * Z) :=
  let s :=
    if first_flag s then
      let s := set_ecg_buffer (replicate (length (ecg_buffer s)) 0%Q) s in
      let s := set_prev_dc_sample 0 s in
      let s := set_prev_sample 0 s in
      set_first_flag false s
    else s in
  let temp1 := NRCOEFF * prev_dc_sample s in
  let s := set_prev_dc_sample ((current_sample - prev_sample s) + temp1) s in
  let s := set_prev_sample current_sample s in
  let ecg_data := (inject_Z (prev_dc_sample s) / 4)%Q in
  buf ← setitem (ecg_buffer s) (buf_start s) ecg_data;
  let s := set_ecg_buffer buf s in
  filtered_output ← ecg_filter_process (ecg_buffer s) CoeffBuf_40Hz_LowPass;
  let s := set_buf_start (buf_start s + 1) s in
  let s := if buf_start s =? FILTER_ORDER then set_buf_start 0 s else s in
  mret (s, filtered_output).

(** [reset_variables(self)] *)
Definition reset_variables (s : ECGRespirationAlgorithm) : ECGRespirationAlgorithm :=
  let s := set_sample_count 0 s in
  let s := set_s_array_index 0 s in
  let s := set_m_array_index 0 s in
  let s := set_maxima_sum 0 s in
  let s := set_sample_index (replicate (length (sample_index s)) 0) s in
  let s := set_start_sample_count_flag false s in
  let s := set_peak_detected false s in
  let s := set_sample_sum 0 s in
  let s := set_first_peak_detect false s in
  let s := set_nopeak_count 0 s in
  let s := set_heart_rate 0%Q s in
  s.

(** [handle_no_peak(self)] *)
Definition handle_no_peak (s : ECGRespirationAlgorithm) : ECGRespirationAlgorithm :=
  let s := set_sample_count (sample_count s + 1) s in
  let s := set_nopeak_count (nopeak_count s + 1) s in
  if 3 * SAMPLING_RATE <? nopeak_count s then reset_variables s else s.

(** [calculate_heart_rate(self)].  The two float quotients are exact
    rationals here; a zero [sample_sum] makes the second one a division by
    zero.  [maxima_sum] is a float between its two assignments and an
    integer before and after. *)
Definition calculate_heart_rate (s : ECGRespirationAlgorithm)
  : result ECGRespirationAlgorithm :=
  let sample_sum_avg := (inject_Z (sample_sum s) / inject_Z (MAX_PEAK_TO_SEARCH - 1))%Q in
  if Qeq_bool sample_sum_avg 0 then Raise ZeroDivisionError else
  let s := set_heart_rate (inject_Z (60 * SAMPLING_RATE) / sample_sum_avg)%Q s in
  let s := set_heart_rate (Qmin' (heart_rate s) 250) s in
  let maxima_sum_f := (inject_Z (maxima_sum s) / inject_Z MAX_PEAK_TO_SEARCH)%Q in
  let max_value := int_of maxima_sum_f in
  let maxima_sum_f := (inject_Z (max_value * 7) / 10)%Q in
  let s := set_qrs_threshold_new (int_of maxima_sum_f) s in
  mret (reset_variables s).

(** [QRS_check_sample_crossing_threshold(self, scaled_result)] *)
Definition QRS_check_sample_crossing_threshold
    (s : ECGRespirationAlgorithm) (scaled_result : Z)
  : result ECGRespirationAlgorithm :=
  if threshold_crossed s then
    let s := set_sample_count (sample_count s + 1) s in
    let s := set_maxima_search (maxima_search s + 1) s in
    let s := if peak s <? scaled_result then set_peak scaled_result s else s in
    if MAXIMA_SEARCH_WINDOW <=? maxima_search s then
      let s := set_maxima_sum (maxima_sum s + peak s) s in
      let s := set_maxima_search 0 s in
      let s := set_threshold_crossed false s in
      let s := set_peak_detected true s in
      mret s
    else mret s
  else if peak_detected s then
    let s := set_sample_count (sample_count s + 1) s in
    let s := set_nopeak_count (nopeak_count s + 1) s in
    let s :=
      if MINIMUM_SKIP_WINDOW <=? nopeak_count s then
        let s := set_nopeak_count 0 s in
        set_peak_detected false s
      else s in
    if m_array_index s =? MAX_PEAK_TO_SEARCH then calculate_heart_rate s
    else mret s
  else if qrs_threshold_new s <? scaled_result then
    let s := set_start_sample_count_flag true s in
    let s := set_sample_count (sample_count s + 1) s in
    let s := set_m_array_index (m_array_index s + 1) s in
    let s := set_threshold_crossed true s in
    let s := set_peak scaled_result s in
    idx ← setitem (sample_index s) (s_array_index s) (sample_count s);
    let s := set_sample_index idx s in
    s ← (if 1 <=? s_array_index s then
           a ← getitem (sample_index s) (s_array_index s);
           b ← getitem (sample_index s) (s_array_index s - 1);
           mret (set_sample_sum (sample_sum s + (a - b)) s)
         else mret s);
    let s := set_s_array_index (s_array_index s + 1) s in
    mret s
  else if (scaled_result <? qrs_threshold_new s) && start_sample_count_flag s then
    mret (handle_no_peak s)
  else
    let s := set_nopeak_count (nopeak_count s + 1) s in
    if 3 * SAMPLING_RATE <? nopeak_count s then mret (reset_variables s)
    else mret s.

(** [QRS_process_buffer(self)] *)
Definition QRS_process_buffer (s : ECGRespirationAlgorithm)
  : result ECGRespirationAlgorithm :=
  QRS_Prev_Sample ← getitem (qrs_samples s) (-2);
  QRS_Next_Sample ← getitem (qrs_samples s) (-1);
  let first_derivative := QRS_Next_Sample - QRS_Prev_Sample in
  let scaled_result := Z.abs first_derivative in
  let s := if max s <? scaled_result then set_max scaled_result s else s in
  let s := set_qrs_b4_buffer_ptr (qrs_b4_buffer_ptr s + 1) s in
  let s :=
    if qrs_b4_buffer_ptr s =? TWO_SEC_SAMPLES then
      let s := set_qrs_threshold_old ((max s * 7) / 10) s in
      let s := set_qrs_threshold_new (qrs_threshold_old s) s in
      let s := set_first_peak_detected true s in
      let s := set_max 0 s in
      set_qrs_b4_buffer_ptr 0 s
    else s in
  if first_peak_detected s
  then QRS_check_sample_crossing_threshold s scaled_result
  else mret s.

(** [QRS_algorithm_interface(self, curr_sample)].  [prev_data] is an
    [int16] array of 32 slots, shifted by one and given the new sample in
    front; its mean is a multiple of 1/32. *)
Definition QRS_algorithm_interface (s : ECGRespirationAlgorithm) (curr_sample : Z)
  : result ECGRespirationAlgorithm :=
  stored ← np_int16 curr_sample;
  shifted ← match prev_data s with
            | [] => Raise IndexError
            | _ :: _ => Ok (stored :: removelast (prev_data s))
            end;
  let s := set_prev_data shifted s in
  let mac := np_mean (map inject_Z (prev_data s)) in
  let curr_sample := int_of mac in
  let s := set_qrs_samples (curr_sample :: removelast (qrs_samples s)) s in
  QRS_process_buffer s.

(** Feeding a sequence of raw samples to the detector. *)
Fixpoint run (s : ECGRespirationAlgorithm) (samples : list Z)
  : result ECGRespirationAlgorithm :=
  match samples with
  | [] => mret s
  | x :: rest => s' ← QRS_algorithm_interface s x; run s' rest
  end.

(** Test signals.  [calibration_signal]: one raw sample of 3200 followed by
    249 zeros, two seconds in all; the 32-sample mean steps up by 100 and
    down again, so the largest derivative of the window is 100.
    [pulse_train n]: [n] periods of 100 samples, each a raw sample of 3200
    followed by 99 zeros. *)
Definition calibration_signal : list Z := 3200 :: replicate 249 0.

Definition pulse_train (n : nat) : list Z :=
  concat (replicate n (3200 :: replicate 99 0)).

End HeartrateAlgorithm.

(** ** spo2_algorithm.py: the SpO2 estimator *)

Module Spo2Algorithm.

Definition uch_spo2_table : list Z :=
  [95; 95; 95; 96; 96; 96; 97; 97; 97; 97; 97; 98; 98; 98; 98; 98; 99; 99; 99; 99;
   99; 99; 99; 99; 100; 100; 100; 100; 100; 100; 100; 100; 100; 100; 100; 100; 100; 100; 100; 100;
   100; 100; 100; 100; 99; 99; 99; 99; 99; 99; 99; 99; 98; 98; 98; 98; 98; 98; 97; 97;
   97; 97; 96; 96; 96; 96; 95; 95; 95; 94; 94; 94; 93; 93; 93; 92; 92; 92; 91; 91;
   90; 90; 89; 89; 89; 88; 88; 87; 87; 86; 86; 85; 85; 84; 84; 83; 82; 82; 81; 81;
   80; 80; 79; 78; 78; 77; 76; 76; 75; 74; 74; 73; 72; 72; 71; 70; 69; 69; 68; 67;
   66; 66; 65; 64; 63; 62; 62; 61; 60; 59; 58; 57; 56; 56; 55; 54; 53; 52; 51; 50;
   49; 48; 47; 46; 45; 44; 43; 42; 41; 40; 39; 38; 37; 36; 35; 34; 33; 31; 30; 29;
   28; 27; 26; 25; 23; 22; 21; 20; 19; 17; 16; 15; 14; 12; 11; 10; 9; 7; 6; 5;
   3; 2; 1].

Definition MA4_SIZE : Z := 4.

(** [an_x = -1 * (pun_ir_buffer - un_ir_mean)] *)
Definition dc_removed (pun_ir_buffer : list Q) : list Q :=
  let un_ir_mean := np_mean pun_ir_buffer in
  map (fun v => (-1 * (v - un_ir_mean))%Q) pun_ir_buffer.

(** The loop [for i in range(BUFFER_SIZE - MA4_SIZE):
    an_x[i] = np.mean(an_x[i:i + MA4_SIZE])], run in place: [count]
    iterations starting at index [i]. *)
Fixpoint ma4_loop (count i : nat) (an_x : list Q) : list Q :=
  match count with
  | O => an_x
  | S count' =>
      ma4_loop count' (S i)
               (<[i := np_mean (take (Z.to_nat MA4_SIZE) (drop i an_x))]> an_x)
  end.

Definition moving_average_4 (an_x : list Q) : list Q :=
  ma4_loop (Z.to_nat (len an_x - MA4_SIZE)) 0 an_x.

(** The smoothed signal the valleys are searched in. *)
Definition smoothed (pun_ir_buffer : list Q) : list Q :=
  moving_average_4 (dc_removed pun_ir_buffer).

(** [n_th1 = max(30, min(np.mean(np.abs(an_x)), 60))] *)
Definition threshold (an_x : list Q) : Q :=
  let n_th1 := np_mean (map Qabs an_x) in
  let n_th1 := if Qltb 60 n_th1 then 60%Q else n_th1 in
  if Qltb 30 n_th1 then n_th1 else 30%Q.

(** The valley search over [range(1, BUFFER_SIZE - 1)]. *)
Definition is_valley (an_x : list Q) (n_th1 : Q) (i : nat) : bool :=
  Qltb (nth i an_x 0%Q) (- n_th1)%Q
  && Qltb (nth i an_x 0%Q) (nth (i - 1) an_x 0%Q)
  && Qltb (nth i an_x 0%Q) (nth (i + 1) an_x 0%Q).

Definition valley_locs (an_x : list Q) : list Z :=
  let n_th1 := threshold an_x in
  map Z.of_nat
      (filter (fun i => is_valley an_x n_th1 i = true)
              (seq 1 (length an_x - 2))).

(** [np.diff(an_ir_valley_locs).sum()] *)
Definition diff (l : list Z) : list Z :=
  zip_with (fun a b => b - a) l (tail l).

Definition Zsum (l : list Z) : Z := fold_left Z.add l 0.

(** The heart rate of the estimator: [-999] with fewer than two valleys. *)
Definition heart_rate_of (an_ir_valley_locs : list Z) : Q :=
  let n_npks := len an_ir_valley_locs in
  let n_peak_interval_sum := if 2 <=? n_npks then Zsum (diff an_ir_valley_locs) else 0 in
  if 2 <=? n_npks then (inject_Z (60 * 25) / inject_Z n_peak_interval_sum)%Q
  else inject_Z (-999).

(** The loop over consecutive valleys that fills [an_ratio] (an array of
    200 slots) and counts its entries; [acc] holds the entries written so
    far. *)
Fixpoint collect_ratios (BUFFER_SIZE : Z) (an_x an_y : list Q)
    (an_ir_valley_locs : list Z) (acc : list Q) : result (list Q) :=
  match an_ir_valley_locs with
  | [] => Ok acc
  | a :: rest =>
      match rest with
      | [] => Ok acc
      | b :: _ =>
          if b <? BUFFER_SIZE then
            n_x_dc_max ← np_max (slice an_x a b);
            n_y_dc_max ← np_max (slice an_y a b);
            let n_x_ac := (n_x_dc_max - np_mean (slice an_x a b))%Q in
            let n_y_ac := (n_y_dc_max - np_mean (slice an_y a b))%Q in
            let n_nume := (n_y_ac * n_x_dc_max)%Q in
            let n_denom := (n_x_ac * n_y_dc_max)%Q in
            if Qltb 0 n_denom then
              if 200 <=? len acc then Raise IndexError
              else collect_ratios BUFFER_SIZE an_x an_y rest
                                  (acc ++ [(100 * n_nume / n_denom)%Q])
            else collect_ratios BUFFER_SIZE an_x an_y rest acc
          else collect_ratios BUFFER_SIZE an_x an_y rest acc
      end
  end.

(** [an_ratio.sort()] *)
Fixpoint insert_sorted (x : Q) (l : list Q) : list Q :=
  match l with
  | [] => [x]
  | y :: l' => if Qle_bool x y then x :: l else y :: insert_sorted x l'
  end.

Definition sort (l : list Q) : list Q := fold_right insert_sorted [] l.

(** [n_ratio_average = int(an_ratio[n_i_ratio_count // 2])] on the sorted
    ratios. *)
Definition ratio_average (an_ratio : list Q) : Z :=
  int_of (nth (Z.to_nat (len an_ratio / 2)) (sort an_ratio) 0%Q).

(** The table look-up at the end of [estimate_spo2]. *)
Definition lookup_spo2 (an_ratio : list Q) : result (option Z) :=
  if 0 <? len an_ratio then
    let n_ratio_average := ratio_average an_ratio in
    if (2 <? n_ratio_average) && (n_ratio_average <? 183) then
      pn_spo2 ← getitem uch_spo2_table n_ratio_average;
      mret (Some pn_spo2)
    else mret None
  else mret None.

(** [estimate_spo2(pun_ir_buffer, pun_red_buffer)]: the pair
    [(pn_spo2, pn_heart_rate)], each component [None] or a value. *)
Definition estimate_spo2 (pun_ir_buffer pun_red_buffer : list Q)
  : result (option Z * option Q) :=
  if (len pun_ir_buffer =? 0) || (len pun_red_buffer =? 0) then mret (None, None)
  else
    let BUFFER_SIZE := len pun_ir_buffer in
    let an_x := smoothed pun_ir_buffer in
    let an_ir_valley_locs := valley_locs an_x in
    let pn_heart_rate := heart_rate_of an_ir_valley_locs in
    an_ratio ← collect_ratios BUFFER_SIZE pun_ir_buffer pun_red_buffer
                              an_ir_valley_locs [];
    pn_spo2 ← lookup_spo2 an_ratio;
    mret (pn_spo2, Some pn_heart_rate).


(** A test window of 100 samples: a flat baseline with a pulse of shape
    (1, 2, 4, 2, 0) times [amp] around each centre. *)
Definition pulse_shape (amp : Z) : list Z := [amp; 2 * amp; 4 * amp; 2 * amp; 0].

Definition test_window (base amp : Z) : list Z :=
  replicate 28 base ++ map (Z.add base) (pulse_shape amp)
  ++ replicate 15 base ++ map (Z.add base) (pulse_shape amp)
  ++ replicate 47 base.

Definition test_ir : list Q := map inject_Z (test_window 1000 100).
Definition test_red : list Q := map inject_Z (test_window 800 40).

(** A window of 100 samples that is flat except for its last sample. *)
Definition step_window : list Q := map inject_Z (replicate 99 1000 ++ [1100]).

End Spo2Algorithm.

(** ** process_data.py: the packet state machine *)

Module ProcessData.

Inductive rx_state : Set :=
| CESState_Init
| CESState_SOF1_Found
| CESState_SOF2_Found
| CESState_PktLen_Found.

Definition CES_CMDIF_PKT_START_1 : Z := 0x0A.
Definition CES_CMDIF_PKT_START_2 : Z := 0xFA.
Definition CES_CMDIF_PKT_STOP : Z := 0x0B.
Definition CES_CMDIF_IND_LEN : Z := 2.
Definition CES_CMDIF_IND_LEN_MSB : Z := 3.
Definition CES_CMDIF_IND_PKTTYPE : Z := 4.
Definition CES_CMDIF_PKT_OVERHEAD : Z := 5.

(** The module-level variables the state machine reads and writes. *)
Record decoder : Type := Decoder {
  pc_rx_state : rx_state;
  CES_Pkt_Pos_Counter : Z;
  CES_Data_Counter : Z;
  CES_Pkt_Len : Z;
  CES_Pkt_PktType : Z;
  CES_Pkt_Data_Counter : list Z
}.

(** Their values when the module has just been loaded. *)
Definition initial : decoder :=
  {| pc_rx_state := CESState_Init;
     CES_Pkt_Pos_Counter := 0;
     CES_Data_Counter := 0;
     CES_Pkt_Len := 0;
     CES_Pkt_PktType := 0;
     CES_Pkt_Data_Counter := [0; 0; 0; 0; 0; 0] |}.

Definition set_state (st : rx_state) (d : decoder) : decoder :=
  Decoder st (CES_Pkt_Pos_Counter d) (CES_Data_Counter d) (CES_Pkt_Len d)
          (CES_Pkt_PktType d) (CES_Pkt_Data_Counter d).
Definition set_pos (p : Z) (d : decoder) : decoder :=
  Decoder (pc_rx_state d) p (CES_Data_Counter d) (CES_Pkt_Len d)
          (CES_Pkt_PktType d) (CES_Pkt_Data_Counter d).
Definition set_data_counter (c : Z) (d : decoder) : decoder :=
  Decoder (pc_rx_state d) (CES_Pkt_Pos_Counter d) c (CES_Pkt_Len d)
          (CES_Pkt_PktType d) (CES_Pkt_Data_Counter d).
Definition set_len (l : Z) (d : decoder) : decoder :=
  Decoder (pc_rx_state d) (CES_Pkt_Pos_Counter d) (CES_Data_Counter d) l
          (CES_Pkt_PktType d) (CES_Pkt_Data_Counter d).
Definition set_pkttype (t : Z) (d : decoder) : decoder :=
  Decoder (pc_rx_state d) (CES_Pkt_Pos_Counter d) (CES_Data_Counter d)
          (CES_Pkt_Len d) t (CES_Pkt_Data_Counter d).
Definition set_data (b : list Z) (d : decoder) : decoder :=
  Decoder (pc_rx_state d) (CES_Pkt_Pos_Counter d) (CES_Data_Counter d)
          (CES_Pkt_Len d) (CES_Pkt_PktType d) b.

(** The three channel values read from the payload buffer when the stop
    byte is accepted ([ecg_value], [ir_value], [red_value]).  The buffer is
    a six-slot list that is only ever assigned by index, so the six reads
    are in range. *)
Definition sample : Type := (Z * Z * Z)%type.

Definition decode_sample (buf : list Z) : sample :=
  (Z.lor (buf !!! 0%nat) (Z.shiftl (buf !!! 1%nat) 8),
   Z.lor (buf !!! 2%nat) (Z.shiftl (buf !!! 3%nat) 8),
   Z.lor (buf !!! 4%nat) (Z.shiftl (buf !!! 5%nat) 8)).

(** [process_data(rx_char, ui)], the state machine.  The result carries
    the new module state and, when the branch "Processing received data"
    is taken, the decoded sample that branch works on (what it does with
    the sample is [handle_sample] below).  [CES_Data_Counter] is set to 0
    and incremented, never negative, so the indexed store is written with
    [Z.to_nat]. *)
Definition process_data (d : decoder) (rx_char : Z) : decoder * option sample :=
  match pc_rx_state d with
  | CESState_Init =>
      if rx_char =? CES_CMDIF_PKT_START_1
      then (set_state CESState_SOF1_Found d, None)
      else (d, None)
  | CESState_SOF1_Found =>
      if rx_char =? CES_CMDIF_PKT_START_2
      then (set_state CESState_SOF2_Found d, None)
      else (set_state CESState_Init d, None)
  | CESState_SOF2_Found =>
      let d := set_state CESState_PktLen_Found d in
      let d := set_len rx_char d in
      let d := set_pos CES_CMDIF_IND_LEN d in
      let d := set_data_counter 0 d in
      (d, None)
  | CESState_PktLen_Found =>
      let d := set_pos (CES_Pkt_Pos_Counter d + 1) d in
      if CES_Pkt_Pos_Counter d <? CES_CMDIF_PKT_OVERHEAD then
        if CES_Pkt_Pos_Counter d =? CES_CMDIF_IND_LEN_MSB then
          (set_len (Z.lor (Z.shiftl rx_char 8) (CES_Pkt_Len d)) d, None)
        else if CES_Pkt_Pos_Counter d =? CES_CMDIF_IND_PKTTYPE then
          (set_pkttype rx_char d, None)
        else (d, None)
      else if (CES_CMDIF_PKT_OVERHEAD <=? CES_Pkt_Pos_Counter d)
              && (CES_Pkt_Pos_Counter d <? CES_CMDIF_PKT_OVERHEAD + CES_Pkt_Len d + 1) then
        if CES_Pkt_PktType d =? 2 then
          if CES_Data_Counter d <? len (CES_Pkt_Data_Counter d) then
            let d := set_data (<[Z.to_nat (CES_Data_Counter d) := rx_char]>
                                 (CES_Pkt_Data_Counter d)) d in
            let d := set_data_counter (CES_Data_Counter d + 1) d in
            (d, None)
          else (d, None)
        else (d, None)
      else
        if rx_char =? CES_CMDIF_PKT_STOP then
          let s := decode_sample (CES_Pkt_Data_Counter d) in
          let d := set_state CESState_Init d in
          let d := set_data_counter 0 d in
          (d, Some s)
        else
          (set_state CESState_Init d, None)
  end.

(** Feeding a byte sequence one byte at a time, collecting the decoded
    samples in order. *)
Fixpoint feed (d : decoder) (bytes : list Z) : decoder * list sample :=
  match bytes with
  | [] => (d, [])
  | b :: rest =>
      let '(d1, out) := process_data d b in
      let '(d2, outs) := feed d1 rest in
      (d2, match out with Some s => s :: outs | None => outs end)
  end.

(** *** The branch "Processing received data" *)

Definition BUFFER_SIZE : Z := 100.

(** The attributes of the user-interface object the branch reads. *)
Record ui_flags : Type := Ui {
  resolution_bits : Z;
  is_recording_data : bool
}.

(** The calls the branch makes on the user-interface object, in order.
    [heart_rate_signal_emit] carries the integer whose decimal text is
    emitted, [spo2_update_signal_emit] the value the text is built from. *)
Inductive ui_event : Type :=
| add_data (ecg_mV : Q) (ir_value : Z)
| heart_rate_signal_emit (bpm : Z)
| spo2_update_signal_emit (spo2_value : option Z)
| record_data (ecg_mV : Q) (ir_value red_value : Z) (spo2_value : option Z).

(** The module-level variables the branch reads and writes. *)
Record sample_store : Type := Store {
  ecg_value : Z;
  ir_value : Z;
  red_value : Z;
  ecg_mV : Q;
  ecg_samples : list Q;
  ir_samples : list Z;
  red_samples : list Z;
  heart_rate : option Q;
  ecg_processor : HeartrateAlgorithm.ECGRespirationAlgorithm
}.

Definition initial_store : sample_store :=
  {| ecg_value := 0; ir_value := 0; red_value := 0; ecg_mV := 0%Q;
     ecg_samples := []; ir_samples := []; red_samples := [];
     heart_rate := None;
     ecg_processor := HeartrateAlgorithm.init |}.

(** [adc_to_voltage(adc_value, resolution_bits)]; the reference voltage
    1.8 is the rational 18/10. *)
Definition adc_to_voltage (adc_value resolution_bits : Z) : result Q :=
  if resolution_bits <? 0 then Raise ValueError else
  let max_adc_value := Z.shiftl 1 resolution_bits - 1 in
  if max_adc_value =? 0 then Raise ZeroDivisionError else
  let voltage := (inject_Z adc_value / inject_Z max_adc_value * (18 # 10))%Q in
  mret (voltage * 1000)%Q.

(** [l.pop(0)] when [len(l) > BUFFER_SIZE] *)
Definition trim (l : list Z) : list Z :=
  if BUFFER_SIZE <? len l then tail l else l.

(** [l[-BUFFER_SIZE:]] *)
Definition last_window (l : list Z) : list Z :=
  drop (length l - Z.to_nat BUFFER_SIZE) l.

(** What the branch does with the decoded sample, up to the reset of the
    state machine: the new module variables and the calls made on the
    user interface. *)
Definition handle_sample (g : sample_store) (ui : ui_flags) (s : sample)
  : result (sample_store * list ui_event) :=
  let '(ecg_value, ir_value, red_value) := s in
  ecg_mV ← adc_to_voltage ecg_value (resolution_bits ui);
  let ecg_samples := ecg_samples g ++ [ecg_mV] in
  ecg_processor ← HeartrateAlgorithm.QRS_algorithm_interface (ecg_processor g) ecg_value;
  let heart_rate := Some (HeartrateAlgorithm.heart_rate ecg_processor) in
  let events := [add_data ecg_mV ir_value] in
  let ecg_samples := ecg_samples ++ [ecg_mV] in
  let ir_samples := trim (ir_samples g ++ [ir_value]) in
  let red_samples := trim (red_samples g ++ [red_value]) in
  '(spo2_value, heart_rate, events) ←
    (if (BUFFER_SIZE <=? len ir_samples) && (BUFFER_SIZE <=? len red_samples) then
       '(spo2_value, heart_rate) ←
         Spo2Algorithm.estimate_spo2 (map inject_Z (last_window ir_samples))
                                     (map inject_Z (last_window red_samples));
       match heart_rate with
       | None => Raise TypeError
       | Some hr =>
           let events :=
             if Qle_bool 60 hr && Qle_bool hr 140
             then events ++ [heart_rate_signal_emit (int_of hr)]
             else events in
           mret (spo2_value, heart_rate, events ++ [spo2_update_signal_emit spo2_value])
       end
     else mret (None, heart_rate, events));
  events ←
    (if is_recording_data ui then
       v ← adc_to_voltage ecg_value (resolution_bits ui);
       mret (events ++ [record_data v ir_value red_value spo2_value])
     else mret events);
  mret (Store ecg_value ir_value red_value ecg_mV ecg_samples ir_samples
              red_samples heart_rate ecg_processor,
        events).

(** A store whose two windows hold the first 99 samples of the test
    windows, so that the next sample fills them. *)
Definition test_store : sample_store :=
  {| ecg_value := 0; ir_value := 0; red_value := 0; ecg_mV := 0%Q;
     ecg_samples := [];
     ir_samples := take 99 (Spo2Algorithm.test_window 1000 100);
     red_samples := take 99 (Spo2Algorithm.test_window 800 40);
     heart_rate := None;
     ecg_processor := HeartrateAlgorithm.init |}.

(** The frame layout of the wire protocol as the specification words it:
    two start bytes, little-endian length, packet type, payload, stop. *)
Definition spec_frame (pkt_type : Z) (payload : list Z) : list Z :=
  [CES_CMDIF_PKT_START_1; CES_CMDIF_PKT_START_2;
   len payload mod 256; len payload / 256; pkt_type]
  ++ payload ++ [CES_CMDIF_PKT_STOP].




(** A frame as the state machine delimits it: the declared length counts
    [length + 1] bytes after the packet type (the payload and one more
    byte, [pad]) before the byte tested against the stop value. *)
Definition padded_frame (lo hi pkt_type : Z) (body : list Z) (last : Z) : list Z :=
  [CES_CMDIF_PKT_START_1; CES_CMDIF_PKT_START_2; lo; hi; pkt_type]
  ++ body ++ [last].



End ProcessData.

(** * Properties *)

(** Case analysis along the branches of a method that ended normally. *)
Ltac branches :=
  repeat match goal with
  | H : Ok _ = Ok _ |- _ => injection H as H; subst
  | H : Raise _ = Ok _ |- _ => discriminate H
  | H : mret _ = Ok _ |- _ => injection H as H; subst
  | H : mbind _ ?m = Ok _ |- _ =>
      let E := fresh "E" in destruct m eqn:E; simpl in H
  | H : (if ?b then _ else _) = Ok _ |- _ =>
      let E := fresh "E" in destruct b eqn:E; simpl in H
  | H : match ?o with Some _ => _ | None => _ end = Ok _ |- _ =>
      let E := fresh "E" in destruct o eqn:E; simpl in H
  | H : (let '(_, _) := ?p in _) = Ok _ |- _ => destruct p; simpl in H
  | |- context [if ?b then _ else _] => destruct b
  end.

(** ** The packet state machine *)

Section Decoder.
Import ProcessData.

Lemma land_low_shiftl (lo hi : Z) :
  0 <= lo < 256 -> Z.land lo (Z.shiftl hi 8) = 0.
Proof.
  intros Hlo. apply Z.bits_inj'. intros n Hn.
  rewrite Z.land_spec, Z.bits_0.
  destruct (Z.lt_ge_cases n 8) as [Hlt | Hge].
  - rewrite (Z.shiftl_spec_low hi 8 n Hlt). apply andb_false_r.
  - replace lo with (lo mod 2 ^ 8) by (apply Z.mod_small; lia).
    rewrite Z.mod_pow2_bits_high by lia. reflexivity.
Qed.

(** The two bytes of a little-endian 16-bit value are put together again
    by [lo | hi << 8]. *)
Lemma le16_decode (v : Z) :
  0 <= v < 65536 -> Z.lor (v mod 256) (Z.shiftl (v / 256) 8) = v.
Proof.
  intros Hv.
  assert (Hlo : 0 <= v mod 256 < 256) by (apply Z.mod_pos_bound; lia).
  pose proof (Z.add_lor_land (v mod 256) (Z.shiftl (v / 256) 8)) as Hadd.
  rewrite (land_low_shiftl _ _ Hlo), Z.shiftl_mul_pow2 in Hadd by lia.
  rewrite Z.shiftl_mul_pow2 by lia.
  change (2 ^ 8) with 256 in *.
  pose proof (Z.div_mod v 256). lia.
Qed.

(** The five header bytes, from any state that waits for a frame. *)
Lemma feed_header (d : decoder) (lo hi t : Z) :
  pc_rx_state d = CESState_Init ->
  feed d [CES_CMDIF_PKT_START_1; CES_CMDIF_PKT_START_2; lo; hi; t]
  = (Decoder CESState_PktLen_Found 4 0 (Z.lor (Z.shiftl hi 8) lo) t
             (CES_Pkt_Data_Counter d), []).
Proof.
  destruct d as [st p c l ty buf]; simpl; intros ->. reflexivity.
Qed.

Lemma feed_app (d : decoder) (xs ys : list Z) :
  feed d (xs ++ ys)
  = let '(d1, o1) := feed d xs in
    let '(d2, o2) := feed d1 ys in (d2, o1 ++ o2).
Proof.
  revert d; induction xs as [| x xs IH]; intros d; simpl.
  - destruct (feed d ys); reflexivity.
  - destruct (process_data d x) as [d1 o]. rewrite IH.
    destruct (feed d1 xs) as [d2 o2], (feed d2 ys) as [d3 o3].
    destruct o; reflexivity.
Qed.

(** One byte inside the counted range of the frame body: it is stored or
    skipped, the machine stays in the body state, nothing is emitted. *)
Lemma body_step (d : decoder) (b : Z) :
  pc_rx_state d = CESState_PktLen_Found ->
  4 <= CES_Pkt_Pos_Counter d ->
  CES_Pkt_Pos_Counter d + 1 <= 5 + CES_Pkt_Len d ->
  exists d1, process_data d b = (d1, None)
    /\ pc_rx_state d1 = CESState_PktLen_Found
    /\ CES_Pkt_Pos_Counter d1 = CES_Pkt_Pos_Counter d + 1
    /\ CES_Pkt_Len d1 = CES_Pkt_Len d
    /\ CES_Pkt_PktType d1 = CES_Pkt_PktType d
    /\ (CES_Pkt_PktType d <> 2 ->
        CES_Pkt_Data_Counter d1 = CES_Pkt_Data_Counter d
        /\ CES_Data_Counter d1 = CES_Data_Counter d).
Proof.
  destruct d as [st p c l ty buf]; simpl; intros -> Hp Hl.
  unfold process_data; simpl. unfold CES_CMDIF_PKT_OVERHEAD.
  destruct (Z.ltb_spec (p + 1) 5); [lia |].
  destruct (Z.leb_spec 5 (p + 1)); [| lia].
  destruct (Z.ltb_spec (p + 1) (5 + l + 1)); [| lia]. simpl.
  destruct (Z.eqb_spec ty 2) as [-> | Hty].
  - destruct (c <? len buf); eexists; (split; [reflexivity |]); simpl;
      repeat split; congruence.
  - eexists; split; [reflexivity |]; simpl. repeat split; reflexivity.
Qed.

Lemma body_run (bs : list Z) : forall d : decoder,
  pc_rx_state d = CESState_PktLen_Found ->
  4 <= CES_Pkt_Pos_Counter d ->
  CES_Pkt_Pos_Counter d + len bs <= 5 + CES_Pkt_Len d ->
  exists d1, feed d bs = (d1, [])
    /\ pc_rx_state d1 = CESState_PktLen_Found
    /\ CES_Pkt_Pos_Counter d1 = CES_Pkt_Pos_Counter d + len bs
    /\ CES_Pkt_Len d1 = CES_Pkt_Len d
    /\ CES_Pkt_PktType d1 = CES_Pkt_PktType d
    /\ (CES_Pkt_PktType d <> 2 ->
        CES_Pkt_Data_Counter d1 = CES_Pkt_Data_Counter d
        /\ CES_Data_Counter d1 = CES_Data_Counter d).
Proof.
  induction bs as [| b bs IH]; intros d Hst Hp Hl.
  - exists d. unfold len; simpl. rewrite Z.add_0_r. repeat split; auto.
  - unfold len in Hl; simpl length in Hl. rewrite Nat2Z.inj_succ in Hl.
    fold (len bs) in Hl.
    destruct (body_step d b Hst Hp ltac:(unfold len in *; lia))
      as (d1 & Hstep & Hst1 & Hp1 & Hl1 & Hty1 & Hbuf1).
    destruct (IH d1 Hst1 ltac:(lia) ltac:(lia))
      as (d2 & Hrun & Hst2 & Hp2 & Hl2 & Hty2 & Hbuf2).
    exists d2. simpl. rewrite Hstep, Hrun.
    split; [reflexivity |]. split; [assumption |].
    split; [unfold len in *; simpl length; lia |].
    split; [congruence |]. split; [congruence |].
    intros Hne. destruct (Hbuf1 Hne) as [E1 E2].
    destruct (Hbuf2 ltac:(congruence)) as [E3 E4]. split; congruence.
Qed.




(** The payload buffer keeps its six slots: every read of
    [decode_sample] is in range. *)
Lemma process_data_buffer_length (d : decoder) (b : Z) :
  length (CES_Pkt_Data_Counter (fst (process_data d b)))
  = length (CES_Pkt_Data_Counter d).
Proof.
  destruct d as [st p c l ty buf]. unfold process_data; simpl.
  destruct st; simpl;
    repeat match goal with
           | |- context [if ?t then _ else _] => destruct t; simpl
           end;
    rewrite ?length_insert; reflexivity.
Qed.

(** In the layout of the specification no frame emits anything while its
    own bytes are fed, whatever its type and payload: the stop byte is the
    last byte of the counted range, and the machine is left in the body
    state, where the byte that follows the frame is the one tested. *)
Lemma spec_frame_emits_nothing (d : decoder) (t : Z) (payload : list Z) :
  pc_rx_state d = CESState_Init ->
  len payload < 65536 ->
  exists d1, feed d (spec_frame t payload) = (d1, [])
             /\ pc_rx_state d1 = CESState_PktLen_Found
             /\ CES_Pkt_Pos_Counter d1 = 5 + CES_Pkt_Len d1.
Proof.
  intros Hst Hlen. unfold spec_frame.
  assert (Hn : 0 <= len payload) by apply Nat2Z.is_nonneg.
  rewrite feed_app, (feed_header d _ _ t Hst). cbv beta iota zeta.
  rewrite Z.lor_comm, le16_decode by lia.
  set (d0 := Decoder CESState_PktLen_Found 4 0 (len payload) t
                     (CES_Pkt_Data_Counter d)).
  assert (Hbody : len (payload ++ [CES_CMDIF_PKT_STOP]) = len payload + 1).
  { unfold len. rewrite length_app. simpl. lia. }
  destruct (body_run (payload ++ [CES_CMDIF_PKT_STOP]) d0 eq_refl
                     ltac:(simpl; lia) ltac:(simpl; lia))
    as (d1 & Hrun & Hst1 & Hp1 & Hl1 & _).
  exists d1. rewrite Hrun. simpl in Hp1, Hl1.
  repeat split; [assumption | lia].
Qed.










(** What the dropped frame left in the payload buffer is observable: the
    next frame of another type emits it as a sample. *)
Example dropped_payload_resurfaces :
  snd (feed initial (padded_frame 6 0 2 [1; 2; 3; 4; 5; 6; 0] 0xFF
                     ++ padded_frame 0 0 3 [0] CES_CMDIF_PKT_STOP))
  = [(513, 1027, 1541)].
Proof. reflexivity. Qed.

End Decoder.

(** ** The FIR filter *)

Section Fir.
Import HeartrateAlgorithm.






(** The accumulator is made an integer by truncation towards zero before
    it is shifted: a dot product of -1/2 gives 0. *)
Example fir_truncates_towards_zero :
  dot_product CoeffBuf_40Hz_LowPass ((1 # 144)%Q :: replicate 160 0%Q) == (-1 # 2)
  /\ ecg_filter_process ((1 # 144)%Q :: replicate 160 0%Q) CoeffBuf_40Hz_LowPass
     = Ok 0.
Proof. split; vm_compute; reflexivity. Qed.

End Fir.

(** ** The QRS detector *)

Section Qrs.
Import HeartrateAlgorithm.

Lemma calculate_heart_rate_clears s s' :
  calculate_heart_rate s = Ok s' -> heart_rate s' = 0%Q.
Proof.
  unfold calculate_heart_rate. intros H. branches. reflexivity.
Qed.

Lemma check_keeps_calibrated s x s' :
  QRS_check_sample_crossing_threshold s x = Ok s' ->
  first_peak_detected s' = first_peak_detected s.
Proof.
  unfold QRS_check_sample_crossing_threshold, calculate_heart_rate, handle_no_peak.
  intros H. branches; reflexivity.
Qed.

Lemma check_heart_rate_zero s x s' :
  heart_rate s = 0%Q ->
  QRS_check_sample_crossing_threshold s x = Ok s' ->
  heart_rate s' = 0%Q.
Proof.
  unfold QRS_check_sample_crossing_threshold, calculate_heart_rate, handle_no_peak.
  intros H0 H. branches; try reflexivity; simpl; assumption.
Qed.

(** Once set, the flag that [QRS_process_buffer] tests is never cleared by
    any call of the detector. *)
Lemma interface_keeps_calibrated s x s' :
  first_peak_detected s = true ->
  QRS_algorithm_interface s x = Ok s' ->
  first_peak_detected s' = true.
Proof.
  unfold QRS_algorithm_interface, QRS_process_buffer. intros Hc H.
  branches;
    try (match goal with
         | H : QRS_check_sample_crossing_threshold _ _ = Ok _ |- _ =>
             apply check_keeps_calibrated in H; rewrite H
         end); simpl; try assumption; try reflexivity.
Qed.

(** The [heart_rate] attribute is 0 after every call of the detector. *)
Lemma interface_heart_rate_zero s x s' :
  heart_rate s = 0%Q ->
  QRS_algorithm_interface s x = Ok s' ->
  heart_rate s' = 0%Q.
Proof.
  unfold QRS_algorithm_interface, QRS_process_buffer. intros Hc H.
  branches;
    try (match goal with
         | H : QRS_check_sample_crossing_threshold _ _ = Ok _ |- _ =>
             apply check_heart_rate_zero in H; [exact H |];
             repeat match goal with
                    | |- context [if ?b then _ else _] => destruct b
                    end; simpl; assumption
         end); simpl; try assumption; try reflexivity.
Qed.

Lemma run_keeps_calibrated (samples : list Z) : forall s s',
  first_peak_detected s = true ->
  run s samples = Ok s' ->
  first_peak_detected s' = true.
Proof.
  induction samples as [| x samples IH]; intros s s' Hc H; simpl in H.
  - injection H as <-. exact Hc.
  - destruct (QRS_algorithm_interface s x) as [s1 | e] eqn:E; simpl in H;
      [| discriminate H].
    exact (IH s1 s' (interface_keeps_calibrated s x s1 Hc E) H).
Qed.

Lemma run_heart_rate_zero (samples : list Z) : forall s s',
  heart_rate s = 0%Q ->
  run s samples = Ok s' ->
  heart_rate s' = 0%Q.
Proof.
  induction samples as [| x samples IH]; intros s s' Hc H; simpl in H.
  - injection H as <-. exact Hc.
  - destruct (QRS_algorithm_interface s x) as [s1 | e] eqn:E; simpl in H;
      [| discriminate H].
    exact (IH s1 s' (interface_heart_rate_zero s x s1 Hc E) H).
Qed.

(** C4, on the code: a fresh detector is calibrated by
    [calibration_signal] (threshold 70, sample pipeline back at zero), then
    fed 376 zero samples, all of zero derivative.  The silence reset has
    run (one sample has been counted since) and the counters of the
    detection cycle are zero, but the detector is still calibrated:
    [reset_variables] clears [first_peak_detect], not the flag
    [first_peak_detected] that gates detection. *)
Theorem silence_keeps_detector_calibrated :
  match run init calibration_signal with
  | Ok s0 =>
      first_peak_detected s0 = true
      /\ qrs_threshold_new s0 = 70
      /\ qrs_samples s0 = replicate 5 0
      /\ prev_data s0 = replicate 32 0
      /\ match run s0 (replicate 376 0) with
         | Ok s =>
             first_peak_detected s = true
             /\ first_peak_detect s = false
             /\ sample_count s = 0
             /\ s_array_index s = 0
             /\ m_array_index s = 0
             /\ sample_sum s = 0
             /\ nopeak_count s = 1
         | Raise _ => False
         end
  | Raise _ => False
  end.
Proof. vm_compute. repeat split. Qed.

(** C6, on the code: after 654 samples of the pulse train four peaks are
    latched, 100 samples apart, and the interval sum is 300; the next
    sample runs [calculate_heart_rate].  The claim gives
    [min(250, 60 * 125 / (300 / 3)) = 75]; the detector's [heart_rate] is 0
    after the call, because the method ends with [reset_variables]. *)
Theorem heart_rate_cleared_after_cycle :
  match run init (take 654 (pulse_train 7)) with
  | Ok s =>
      m_array_index s = MAX_PEAK_TO_SEARCH
      /\ peak_detected s = true
      /\ sample_index s = [1; 101; 201; 301; 0; 0]
      /\ sample_sum s = 300
      /\ Qmin' (inject_Z (60 * 125) / (inject_Z (sample_sum s) / 3)) 250 == 75
      /\ match QRS_algorithm_interface s 0 with
         | Ok s' =>
             heart_rate s' = 0%Q
             /\ m_array_index s' = 0
             /\ qrs_threshold_new s' = 70
         | Raise _ => False
         end
  | Raise _ => False
  end.
Proof. vm_compute. repeat split. Qed.

End Qrs.

(** ** The SpO2 estimator *)

Section Spo2.
Import Spo2Algorithm.

Lemma insert_sorted_perm x l : Permutation (x :: l) (insert_sorted x l).
Proof.
  induction l as [| y l IH]; simpl; [reflexivity |].
  destruct (Qle_bool x y); [reflexivity |].
  rewrite perm_swap. apply perm_skip, IH.
Qed.

Lemma sort_perm l : Permutation l (Spo2Algorithm.sort l).
Proof.
  induction l as [| x l IH]; simpl; [reflexivity |].
  rewrite <- insert_sorted_perm. apply perm_skip, IH.
Qed.

Lemma insert_sorted_sorted x l :
  Sorted Qle l -> Sorted Qle (insert_sorted x l).
Proof.
  induction 1 as [| y l Hs IH Hhd]; simpl.
  - repeat constructor.
  - destruct (Qle_bool x y) eqn:E.
    + constructor; [constructor; assumption |]. constructor.
      apply Qle_bool_iff; assumption.
    + assert (Hyx : (y <= x)%Q).
      { destruct (Qlt_le_dec y x) as [Hlt | Hle]; [apply Qlt_le_weak; exact Hlt |].
        apply Qle_bool_iff in Hle. congruence. }
      constructor; [exact IH |].
      destruct l as [| z l]; simpl.
      * constructor; exact Hyx.
      * inversion Hhd; subst. destruct (Qle_bool x z); constructor; assumption.
Qed.

(** [sort] puts the ratios in ascending order. *)
Lemma sort_sorted l : Sorted Qle (Spo2Algorithm.sort l).
Proof.
  induction l as [| x l IH]; simpl; [constructor |].
  apply insert_sorted_sorted, IH.
Qed.

Lemma ma4_loop_length (count : nat) : forall (i : nat) (l : list Q),
  length (ma4_loop count i l) = length l.
Proof.
  induction count as [| count IH]; intros i l; simpl; [reflexivity |].
  rewrite IH. apply length_insert.
Qed.

(** The loop invariant: positions outside [i, i + count) are untouched,
    and a position inside receives the mean of the four values that start
    there, none of which has been overwritten when it is computed. *)
Lemma ma4_loop_lookup (count : nat) : forall (i : nat) (l : list Q) (j : nat),
  (i + count <= length l)%nat ->
  ma4_loop count i l !! j
  = if decide (i <= j < i + count)%nat
    then Some (np_mean (take 4 (drop j l)))
    else l !! j.
Proof.
  induction count as [| count IH]; intros i l j Hle; simpl.
  - destruct (decide _); [lia | reflexivity].
  - rewrite IH by (rewrite length_insert; lia).
    destruct (decide (S i <= j < S i + count)%nat) as [Hin | Hout].
    + rewrite drop_insert_lt by lia.
      destruct (decide _); [reflexivity | lia].
    + destruct (decide (i = j)) as [<- | Hne].
      * rewrite list_lookup_insert_eq by lia.
        destruct (decide _); [reflexivity | lia].
      * rewrite list_lookup_insert_ne by assumption.
        destruct (decide _); [lia | reflexivity].
Qed.

(** C9, as stated: all positions but the last three are overwritten by the
    mean of their four-sample window.  In [step_window] (100 samples)
    position 96 has the full window 96..99, whose mean is -24, and keeps
    its unsmoothed value 1. *)
Lemma fourth_last_position_not_smoothed :
  length step_window = 100%nat
  /\ dc_removed step_window !! 96%nat = Some 1%Q
  /\ np_mean (take 4 (drop 96 (dc_removed step_window))) = (-24)%Q
  /\ smoothed step_window !! 96%nat = Some 1%Q
  /\ smoothed step_window !! 96%nat
     <> Some (np_mean (take 4 (drop 96 (dc_removed step_window)))).
Proof. vm_compute. repeat split. discriminate. Qed.

(** C9, amended: the moving average overwrites, in place, every position
    of the DC-removed negated IR signal except the last four, each with the
    mean of the four unsmoothed values that start there; the last four
    positions keep their unsmoothed values, and the length is unchanged. *)
Theorem moving_average_leaves_last_four (pun_ir_buffer : list Q) (i : nat) :
  length (smoothed pun_ir_buffer) = length pun_ir_buffer
  /\ ((i + 4 < length pun_ir_buffer)%nat ->
      smoothed pun_ir_buffer !! i
      = Some (np_mean (take 4 (drop i (dc_removed pun_ir_buffer)))))
  /\ ((length pun_ir_buffer <= i + 4)%nat ->
      smoothed pun_ir_buffer !! i = dc_removed pun_ir_buffer !! i).
Proof.
  unfold smoothed, moving_average_4.
  assert (Hlen : length (dc_removed pun_ir_buffer) = length pun_ir_buffer)
    by (unfold dc_removed; apply length_map).
  set (an_x := dc_removed pun_ir_buffer) in *.
  assert (Hcount : Z.to_nat (len an_x - MA4_SIZE) = (length an_x - 4)%nat)
    by (unfold len, MA4_SIZE; lia).
  rewrite Hcount. split; [rewrite ma4_loop_length; exact Hlen |].
  split; intros Hi; rewrite ma4_loop_lookup by lia;
    destruct (decide _); (reflexivity || lia).
Qed.

Lemma moving_average_leaves_last_four_witness :
  smoothed test_ir !! 28%nat
  = Some (np_mean (take 4 (drop 28 (dc_removed test_ir))))
  /\ smoothed step_window !! 96%nat = dc_removed step_window !! 96%nat.
Proof.
  destruct (moving_average_leaves_last_four test_ir 28) as (_ & Hin & _).
  destruct (moving_average_leaves_last_four step_window 96) as (_ & _ & Hout).
  split; [apply Hin | apply Hout].
  - change (length test_ir) with 100%nat. lia.
  - change (length step_window) with 100%nat. lia.
Defined.

(** C10: with an empty IR buffer or an empty RED buffer the estimator
    returns [(None, None)], and raises nothing. *)
Theorem empty_buffer_unavailable (pun_ir_buffer pun_red_buffer : list Q) :
  pun_ir_buffer = [] \/ pun_red_buffer = [] ->
  estimate_spo2 pun_ir_buffer pun_red_buffer = Ok (None, None).
Proof.
  intros [-> | ->]; unfold estimate_spo2; simpl; [reflexivity |].
  rewrite orb_true_r. reflexivity.
Qed.

Lemma empty_buffer_unavailable_witness :
  estimate_spo2 [] test_red = Ok (None, None)
  /\ estimate_spo2 test_ir [] = Ok (None, None).
Proof.
  split.
  - apply (empty_buffer_unavailable [] test_red). left. reflexivity.
  - apply (empty_buffer_unavailable test_ir []). right. reflexivity.
Defined.





(** The four boundary indices. *)
Example lookup_spo2_boundaries :
  lookup_spo2 [(29 # 10)%Q] = Ok None
  /\ lookup_spo2 [(39 # 10)%Q] = Ok (Some 96)
  /\ lookup_spo2 [(1829 # 10)%Q] = Ok (Some 1)
  /\ lookup_spo2 [(1830 # 10)%Q] = Ok None.
Proof. repeat split. Qed.

End Spo2.

(** ** What reaches the heart-rate signal *)

Section Pipeline.
Import ProcessData.

(** C5, as stated: every value emitted on the heart-rate signal is the
    QRS-based estimate.  When the sample (0, 1000, 800) completes the two
    test windows, 75 is emitted while the QRS detector's heart rate is 0. *)
Lemma heart_rate_signal_not_qrs :
  match handle_sample test_store (Ui 18 false) (0, 1000, 800) with
  | Ok (g', events) =>
      In (heart_rate_signal_emit 75) events
      /\ HeartrateAlgorithm.heart_rate (ecg_processor g') = 0%Q
      /\ 75 <> int_of (HeartrateAlgorithm.heart_rate (ecg_processor g'))
  | Raise _ => False
  end.
Proof. vm_compute. repeat split; [auto | discriminate]. Qed.

(** C5, amended: every value emitted on the heart-rate signal is the heart
    rate returned by the SpO2 estimator for the current 100-sample windows,
    truncated to an integer, and that heart rate lies within [60, 140];
    heart rates outside the band are not emitted, and the QRS-based value
    is overwritten before the band test. *)
Theorem heart_rate_signal_is_spo2_estimate
    (g : sample_store) (ui : ui_flags) (s : sample)
    (g' : sample_store) (events : list ui_event) (bpm : Z) :
  handle_sample g ui s = Ok (g', events) ->
  In (heart_rate_signal_emit bpm) events ->
  exists spo2_value hr,
    Spo2Algorithm.estimate_spo2 (map inject_Z (last_window (ir_samples g')))
                                (map inject_Z (last_window (red_samples g')))
    = Ok (spo2_value, Some hr)
    /\ (60 <= hr)%Q /\ (hr <= 140)%Q
    /\ bpm = int_of hr
    /\ heart_rate g' = Some hr.
Proof.
  unfold handle_sample. destruct s as [[ecg ir] red]. intros H Hin.
  branches; simpl in Hin;
    repeat match goal with
    | H : In _ (_ ++ _) |- _ => apply in_app_or in H; simpl in H
    | H : In _ (if ?b then _ else _) |- _ =>
        let E := fresh "E" in destruct b eqn:E; simpl in H
    | H : _ \/ _ |- _ => destruct H
    | H : False |- _ => destruct H
    | H : _ = heart_rate_signal_emit _ |- _ => inversion H; clear H; subst
    end.
  all: try match goal with
           | E : _ && _ = true |- _ => apply andb_true_iff in E; destruct E
           end.
  all: do 2 eexists; simpl; (split; [eassumption |]);
       repeat split; try (apply Qle_bool_iff; assumption).
Qed.

Lemma heart_rate_signal_is_spo2_estimate_witness :
  match handle_sample test_store (Ui 18 false) (0, 1000, 800) with
  | Ok (g', _) =>
      exists spo2_value hr,
        Spo2Algorithm.estimate_spo2 (map inject_Z (last_window (ir_samples g')))
                                    (map inject_Z (last_window (red_samples g')))
        = Ok (spo2_value, Some hr)
        /\ (60 <= hr)%Q /\ (hr <= 140)%Q
        /\ 75 = int_of hr
        /\ heart_rate g' = Some hr
  | Raise _ => False
  end.
Proof.
  pose proof (heart_rate_signal_is_spo2_estimate
                test_store (Ui 18 false) (0, 1000, 800)) as T.
  destruct (handle_sample test_store (Ui 18 false) (0, 1000, 800))
    as [[g' events] | e] eqn:E.
  - apply (T g' events 75 eq_refl).
    vm_compute in E. injection E as _ <-. simpl. auto.
  - vm_compute in E. discriminate E.
Defined.

End Pipeline.
